(** * golang-kmod: the cgo binding over libkmod (kmod/kmod.go)

    The wrapper is a thin layer over a foreign library, so the embedding is a
    state monad over the native library's world (opaque, given by a type
    class of the C functions the file calls), the chronological trace of the
    C calls issued, the Go heap of [Kmod] objects (the receiver of every
    method is a pointer that [cleanup] mutates) and the finalizers the
    runtime holds. *)

From Stdlib Require Import ZArith Lia Ascii.
From stdpp Require Import base list strings.

Local Open Scope Z_scope.

(** ** C data as the binding sees it *)

(** A C pointer: an address, with [NULL] the Go [nil]. *)
Definition ptr := Z.
Definition NULL : ptr := 0.

(** [C.int]: a 32-bit signed integer kept as a [Z] in range. *)
Definition cint := Z.
Definition cint_min : Z := - 2 ^ 31.
Definition cint_wrap (z : Z) : cint := (z + 2 ^ 31) mod 2 ^ 32 - 2 ^ 31.

(** Go's unary minus on a [C.int] ([-err], [-errCode]): two's complement. *)
Definition cint_neg (x : cint) : cint := cint_wrap (- x).

(** A [*C.struct_kmod_list]: the module pointers held by the entries that are
    reachable from it, in [kmod_list_next] order.  The empty list is the C
    [NULL], and the iterator of a traversal is a suffix of the head. *)
Definition klist := list ptr.

(** ** The C calls, as recorded in the trace *)

Inductive Event :=
| EvKmodNew (dirname config_paths : ptr)
| EvLoadResources (ctx : ptr)
| EvUnloadResources (ctx : ptr)
| EvUnref (ctx : ptr)
| EvNewFromLoaded (ctx : ptr)
| EvNewFromLookup (ctx : ptr) (alias : string)
| EvNewFromName (ctx : ptr) (name : string)
| EvProbeInsert (m : ptr) (flags : Z)
    (extra_options run_install data print_action : ptr)
| EvRemoveModule (m : ptr) (flags : Z)
| EvGetName (m : ptr)
| EvGetModule (entry : klist)
| EvUnrefList (list : klist)
| EvStrerror (errnum : cint)
| EvCString (s : string)
| EvFree (s : string).

(** ** libkmod and libc: the foreign interface

    Every function of [import "C"] that kmod.go calls, as a function of the
    native world [W].  Out-parameters ([&list], [&module]) are returned
    next to the status. *)
Class Libkmod (W : Type) := {
  kmod_new : ptr -> ptr -> W -> ptr * W;
  kmod_load_resources : ptr -> W -> cint * W;
  kmod_unload_resources : ptr -> W -> W;
  kmod_unref : ptr -> W -> W;
  kmod_module_new_from_loaded : ptr -> W -> (cint * klist) * W;
  kmod_module_new_from_lookup : ptr -> string -> W -> (cint * klist) * W;
  kmod_module_new_from_name : ptr -> string -> W -> (cint * ptr) * W;
  kmod_module_probe_insert_module :
    ptr -> Z -> ptr -> ptr -> ptr -> ptr -> W -> cint * W;
  kmod_module_remove_module : ptr -> Z -> W -> cint * W;
  kmod_module_get_name : ptr -> W -> string;
  kmod_module_get_module : klist -> W -> W;
  kmod_module_unref_list : klist -> W -> W;
  strerror : cint -> string
}.

(** ** fmt.Errorf

    Only the [%s] verb occurs in kmod.go; every other byte of the format is
    copied. *)
Fixpoint Sprintf (format : string) (args : list string) : string :=
  match format with
  | EmptyString => EmptyString
  | String c rest =>
      if Ascii.eqb c "%" then
        match rest with
        | String v rest' =>
            if Ascii.eqb v "s" then
              match args with
              | a :: args' => a +:+ Sprintf rest' args'
              | [] => "%!s(MISSING)" +:+ Sprintf rest' []
              end
            else String c (Sprintf rest args)
        | EmptyString => "%!(NOVERB)"
        end
      else String c (Sprintf rest args)
  end.

(** A Go [error] value: [None] is [nil], [Some msg] an error whose [Error()]
    is [msg]. *)
Definition error := option string.

Definition Errorf (format : string) (args : list string) : error :=
  Some (Sprintf format args).

(** The line feed that ends the format of [List]. *)
Definition LF : string := String (ascii_of_nat 10) EmptyString.

(** [sub] occurs in [msg]. *)
Definition mentions (msg sub : string) : Prop :=
  exists pre post, msg = pre +:+ sub +:+ post.

(** ** Go objects *)

(** [type Kmod struct { ctx *C.struct_kmod_ctx }] *)
Record Kmod := mkKmod { ctx : ptr }.

(** A [*Kmod]: a location of the Go heap.  A location that holds no object
    stands for the nil pointer. *)
Definition loc := nat.

(** Modelled from the spec: the Module handle of module.go, which is not among
    the sources; kmod.go reads its field [mod], the native module pointer. *)
Record Module := mkModule { Module_mod : ptr }.

(** Modelled from the spec: module.go's constructor, which wraps the native
    module pointer in a handle. *)
Definition newModule (m : ptr) : Module := mkModule m.

(** Modelled from the spec: module.go's list adapter result; kmod.go reads its
    field [modules]. *)
Record moduleList := mkModuleList { modules : list Module }.

Inductive Outcome (A : Type) :=
| Ret (a : A)
| Panic.
Arguments Ret {A} a.
Arguments Panic {A}.

Section Binding.
Context {W : Type} `{Libkmod W}.

(** What a run can observe and change. *)
Record GoState := mkState {
  world : W;
  trace : list Event;
  heap : list Kmod;
  finalizers : list loc
}.

Definition M (A : Type) := GoState -> Outcome A * GoState.

Definition mret {A} (a : A) : M A := fun s => (Ret a, s).

Definition mbind {A B} (m : M A) (k : A -> M B) : M B :=
  fun s =>
    match m s with
    | (Ret a, s') => k a s'
    | (Panic, s') => (Panic, s')
    end.

Definition panic {A} : M A := fun s => (Panic, s).

(** A call into C: the world moves as the library says and the call is
    appended to the trace. *)
Definition ccall {A} (e : Event) (f : W -> A * W) : M A :=
  fun s =>
    let (a, w') := f (world s) in
    (Ret a, mkState w' (trace s ++ [e]) (heap s) (finalizers s)).

Definition cvoid (e : Event) (f : W -> W) : M unit :=
  ccall e (fun w => (tt, f w)).

(** [kmod.x] for a [kmod *Kmod]: a nil dereference panics. *)
Definition deref (kmod : loc) : M Kmod :=
  fun s =>
    match heap s !! kmod with
    | Some k => (Ret k, s)
    | None => panic s
    end.

(** [kmod.ctx = v] *)
Definition store (kmod : loc) (k : Kmod) : M unit :=
  fun s =>
    match heap s !! kmod with
    | Some _ =>
        (Ret tt,
         mkState (world s) (trace s) (<[kmod := k]> (heap s)) (finalizers s))
    | None => panic s
    end.

(** [&Kmod{ctx}] *)
Definition alloc (k : Kmod) : M loc :=
  fun s =>
    (Ret (length (heap s)),
     mkState (world s) (trace s) (heap s ++ [k]) (finalizers s)).

(** [runtime.SetFinalizer(ret, ( *Kmod).cleanup)]: the collector will run
    [cleanup] on the object once it is unreachable. *)
Definition runtime_SetFinalizer (r : loc) : M unit :=
  fun s =>
    (Ret tt,
     mkState (world s) (trace s) (heap s) (finalizers s ++ [r])).

End Binding.

Arguments GoState W : clear implicits.
Arguments M W A : clear implicits.

Declare Scope go_scope.
Delimit Scope go_scope with go.
Notation "x <- c1 ;; c2" := (mbind c1 (fun x => c2))
  (at level 100, c1 at next level, right associativity) : go_scope.
Notation "c1 ;; c2" := (mbind c1 (fun _ => c2))
  (at level 100, right associativity) : go_scope.

(** ** kmod.go *)

Section Wrapper.
Context {W : Type} `{Libkmod W}.
Local Open Scope go_scope.

Local Abbreviation M := (M W).

(** [goStrerror]: [C.strerror(err)] converted by [C.GoString]. *)
Definition goStrerror (err : cint) : M string :=
  ccall (EvStrerror err) (fun w => (strerror err, w)).

(** [C.CString(s)] and [C.free]: the C copy of a Go string, denoted by the
    string it holds. *)
Definition C_CString (s : string) : M string :=
  ccall (EvCString s) (fun w => (s, w)).

Definition C_free (c : string) : M unit :=
  cvoid (EvFree c) (fun w => w).

(** Modelled from the spec: [Module.Name] of module.go, the accessor that
    asks the native library for the module's name. *)
Definition Module_Name (module : Module) : M string :=
  ccall (EvGetName (Module_mod module))
        (fun w => (kmod_module_get_name (Module_mod module) w, w)).

(** Modelled from the spec: the traversal of module.go's list adapter.  For
    every entry from [itr] on, in [kmod_list_next] order, it obtains the
    module the entry holds (taking a reference) and wraps it. *)
Fixpoint traverse (itr : klist) : M (list Module) :=
  match itr with
  | [] => mret []
  | m :: next =>
      ccall (EvGetModule itr) (fun w => (tt, kmod_module_get_module itr w)) ;;
      rest <- traverse next ;;
      mret (newModule m :: rest)
  end.

(** Modelled from the spec: [newModuleList] of module.go.  It traverses the
    native list into an ordered sequence of handles, then releases the list
    scaffolding (not the modules). *)
Definition newModuleList (list : klist) : M moduleList :=
  ms <- traverse list ;;
  cvoid (EvUnrefList list) (kmod_module_unref_list list) ;;
  mret (mkModuleList ms).

(** [func NewKmod() ( *Kmod, error)] *)
Definition NewKmod : M (option loc * error) :=
  ctx <- ccall (EvKmodNew NULL NULL) (kmod_new NULL NULL) ;;
  if ctx =? NULL then
    mret (None, Errorf "Kmod: unable to create the kmod_ctx, leaving now" [])
  else
    err <- ccall (EvLoadResources ctx) (kmod_load_resources ctx) ;;
    if err <? 0 then
      msg <- goStrerror (cint_neg err) ;;
      mret (None,
            Errorf "Kmod: unable to prepare the kmod_ctx, leaving now - %s"
                   [msg])
    else
      ret <- alloc (mkKmod ctx) ;;
      runtime_SetFinalizer ret ;;
      mret (Some ret, None).

(** [func (kmod *Kmod) cleanup()] *)
Definition cleanup (kmod : loc) : M unit :=
  k <- deref kmod ;;
  if negb (ctx k =? NULL) then
    cvoid (EvUnloadResources (ctx k)) (kmod_unload_resources (ctx k)) ;;
    cvoid (EvUnref (ctx k)) (kmod_unref (ctx k)) ;;
    store kmod (mkKmod NULL)
  else mret tt.

(** [func (kmod *Kmod) List() ([]*Module, error)] *)
Definition List (kmod : loc) : M (list Module * error) :=
  k <- deref kmod ;;
  r <- ccall (EvNewFromLoaded (ctx k)) (kmod_module_new_from_loaded (ctx k)) ;;
  let (err, list) := r : cint * klist in
  if err <? 0 then
    msg <- goStrerror (cint_neg err) ;;
    mret ([], Errorf ("Kmod: couldn't get the list of modules: %s" +:+ LF)
                     [msg])
  else
    modList <- newModuleList list ;;
    mret (modules modList, None).

(** [func (kmod *Kmod) Lookup(aliasName string) ([]*Module, error)] *)
Definition Lookup (kmod : loc) (aliasName : string)
  : M (list Module * error) :=
  cAliasName <- C_CString aliasName ;;
  k <- deref kmod ;;
  r <- ccall (EvNewFromLookup (ctx k) cAliasName)
             (kmod_module_new_from_lookup (ctx k) cAliasName) ;;
  let (err, list) := r : cint * klist in
  C_free cAliasName ;;
  if err <? 0 then
    msg <- goStrerror (cint_neg err) ;;
    mret ([], Errorf "Kmod : Failed to lookup %s - %s" [aliasName; msg])
  else
    modList <- newModuleList list ;;
    mret (modules modList, None).

(** [func (kmod *Kmod) ModuleFromName(name string) ( *Module, error)] *)
Definition ModuleFromName (kmod : loc) (name : string)
  : M (option Module * error) :=
  cName <- C_CString name ;;
  k <- deref kmod ;;
  r <- ccall (EvNewFromName (ctx k) cName)
             (kmod_module_new_from_name (ctx k) cName) ;;
  let (err, module) := r : cint * ptr in
  C_free cName ;;
  if err <? 0 then
    msg <- goStrerror (cint_neg err) ;;
    mret (None, Errorf "Kmod : Could not get module %s - %s" [name; msg])
  else
    mret (Some (newModule module), None).

(** The [for _, module := range modules] loop of [Insert]. *)
Fixpoint Insert_range (modules : list Module) : M error :=
  match modules with
  | [] => mret None
  | module :: rest =>
      errCode <- ccall (EvProbeInsert (Module_mod module) 0 NULL NULL NULL NULL)
                   (kmod_module_probe_insert_module
                      (Module_mod module) 0 NULL NULL NULL NULL) ;;
      if errCode <? 0 then
        name <- Module_Name module ;;
        msg <- goStrerror (cint_neg errCode) ;;
        mret (Errorf "Could not insert module %s : %s" [name; msg])
      else Insert_range rest
  end.

(** [func (kmod *Kmod) Insert(name string) error] *)
Definition Insert (kmod : loc) (name : string) : M error :=
  r <- Lookup kmod name ;;
  let (modules, err) := r : list Module * error in
  match err with
  | Some _ => mret err
  | None => Insert_range modules
  end.

(** The [for _, module := range modules] loop of [Remove]. *)
Fixpoint Remove_range (modules : list Module) : M error :=
  match modules with
  | [] => mret None
  | module :: rest =>
      errCode <- ccall (EvRemoveModule (Module_mod module) 0)
                   (kmod_module_remove_module (Module_mod module) 0) ;;
      if errCode <? 0 then
        name <- Module_Name module ;;
        msg <- goStrerror (cint_neg errCode) ;;
        mret (Errorf "Could not remove module %s : %s" [name; msg])
      else Remove_range rest
  end.

(** [func (kmod *Kmod) Remove(name string) error] *)
Definition Remove (kmod : loc) (name : string) : M error :=
  r <- Lookup kmod name ;;
  let (modules, err) := r : list Module * error in
  match err with
  | Some _ => mret err
  | None => Remove_range modules
  end.

End Wrapper.

(** ** What the claims speak of *)

Section Specification.
Context {W : Type} `{Libkmod W}.

(** The request [Insert] issues for a module: flags 0 and every optional
    argument [nil]. *)
Definition probe_request (m : Module) : Event :=
  EvProbeInsert (Module_mod m) 0 NULL NULL NULL NULL.

Definition probe_call (m : Module) : W -> cint * W :=
  kmod_module_probe_insert_module (Module_mod m) 0 NULL NULL NULL NULL.

(** The request [Remove] issues for a module: flags 0. *)
Definition remove_request (m : Module) : Event :=
  EvRemoveModule (Module_mod m) 0.

Definition remove_call (m : Module) : W -> cint * W :=
  kmod_module_remove_module (Module_mod m) 0.

(** The batch policy as the specification words it: one request per module,
    in sequence order; the first negative status stops the batch with an
    error that names the module and carries the rendered status; nothing
    already applied is undone.  [batch request call verb ms w tr w' r]: from
    world [w], the batch over [ms] issues exactly the calls [tr], leaves the
    world [w'] and returns [r]. *)
Inductive batch (request : Module -> Event)
    (call : Module -> W -> cint * W) (verb : string)
  : list Module -> W -> list Event -> W -> error -> Prop :=
| batch_done w :
    batch request call verb [] w [] w None
| batch_next m ms w c w1 tr w2 r :
    call m w = (c, w1) ->
    0 <= c ->
    batch request call verb ms w1 tr w2 r ->
    batch request call verb (m :: ms) w (request m :: tr) w2 r
| batch_stop m ms w c w1 :
    call m w = (c, w1) ->
    c < 0 ->
    batch request call verb (m :: ms) w
      [request m; EvGetName (Module_mod m); EvStrerror (cint_neg c)] w1
      (Some ("Could not " +:+ verb +:+ " module "
             +:+ kmod_module_get_name (Module_mod m) w1
             +:+ " : " +:+ strerror (cint_neg c))).

(** The world after the list adapter has taken a reference on the module of
    every entry from [itr] on. *)
Fixpoint traverse_world (itr : klist) (w : W) : W :=
  match itr with
  | [] => w
  | _ :: next => traverse_world next (kmod_module_get_module itr w)
  end.

(** The calls of that traversal: one per entry. *)
Fixpoint traverse_events (itr : klist) : list Event :=
  match itr with
  | [] => []
  | _ :: next => EvGetModule itr :: traverse_events next
  end.

(** What the whole adapter leaves: the references taken, the scaffolding
    released. *)
Definition adapt_world (head : klist) (w : W) : W :=
  kmod_module_unref_list head (traverse_world head w).

Definition adapt_events (head : klist) : list Event :=
  traverse_events head ++ [EvUnrefList head].

Definition is_remove (e : Event) : bool :=
  match e with EvRemoveModule _ _ => true | _ => false end.

Definition is_probe (e : Event) : bool :=
  match e with EvProbeInsert _ _ _ _ _ _ => true | _ => false end.

Definition is_session_release (c : ptr) (e : Event) : bool :=
  match e with EvUnref c' => c' =? c | _ => false end.

(** [cleanup] called [n] times in a row on the same object. *)
Fixpoint cleanup_times (n : nat) (kmod : loc) (s : GoState W)
  : Outcome unit * GoState W :=
  match n with
  | O => (Ret tt, s)
  | S n' =>
      match cleanup kmod s with
      | (Ret _, s') => cleanup_times n' kmod s'
      | (Panic, s') => (Panic, s')
      end
  end.

End Specification.

(** ** A scripted native library

    A stand-in for libkmod whose answers are read off its world, so that the
    binding can be run on concrete inputs. *)

Record Scripted := mkScripted {
  sc_session : ptr;
  sc_load : cint;
  sc_loaded : cint * klist;
  sc_lookup : string -> cint * klist;
  sc_from_name : string -> cint * ptr;
  sc_probe : ptr -> cint;
  sc_remove : ptr -> cint;
  sc_name : ptr -> string;
  sc_live_sessions : Z;
  sc_inserted : list ptr
}.

Definition sc_with (w : Scripted) (live : Z) (ins : list ptr) : Scripted :=
  mkScripted (sc_session w) (sc_load w) (sc_loaded w) (sc_lookup w)
    (sc_from_name w) (sc_probe w) (sc_remove w) (sc_name w) live ins.

(** The messages of glibc for the statuses the examples use. *)
Definition sc_strerror (e : cint) : string :=
  if e =? 2 then "No such file or directory"
  else if e =? 12 then "Cannot allocate memory"
  else if e =? 19 then "No such device"
  else "Unknown error".

#[global] Instance Scripted_Libkmod : Libkmod Scripted := {
  kmod_new _ _ w :=
    (sc_session w,
     if sc_session w =? NULL then w
     else sc_with w (sc_live_sessions w + 1) (sc_inserted w));
  kmod_load_resources _ w := (sc_load w, w);
  kmod_unload_resources _ w := w;
  kmod_unref _ w := sc_with w (sc_live_sessions w - 1) (sc_inserted w);
  kmod_module_new_from_loaded _ w := (sc_loaded w, w);
  kmod_module_new_from_lookup _ a w := (sc_lookup w a, w);
  kmod_module_new_from_name _ n w := (sc_from_name w n, w);
  kmod_module_probe_insert_module m _ _ _ _ _ w :=
    (sc_probe w m,
     if sc_probe w m <? 0 then w
     else sc_with w (sc_live_sessions w) (m :: sc_inserted w));
  kmod_module_remove_module m _ w :=
    (sc_remove w m,
     if sc_remove w m <? 0 then w
     else sc_with w (sc_live_sessions w)
            (filter (fun x => x <> m) (sc_inserted w)));
  kmod_module_get_name m w := sc_name w m;
  kmod_module_get_module _ w := w;
  kmod_module_unref_list _ w := w;
  strerror := sc_strerror
}.

(** A machine on which the alias [snd] resolves to the modules at 11, 12 and
    13, of which the one at 12 can be neither inserted nor removed. *)
Definition machine (session : ptr) (load : cint) : Scripted :=
  mkScripted session load (0, [21; 22])
    (fun a => if String.eqb a "snd" then (0, [11; 12; 13])
              else if String.eqb a "none" then (0, [])
              else (-2, []))
    (fun n => if String.eqb n "pcspkr" then (0, 21) else (-2, NULL))
    (fun m => if m =? 12 then -19 else 0)
    (fun m => if m =? 12 then -2 else 0)
    (fun m => if m =? 11 then "snd_a" else if m =? 12 then "snd_b"
              else if m =? 13 then "snd_c" else "pcspkr")
    0 [].

Definition boot (w : Scripted) : GoState Scripted := mkState w [] [] [].

(** The same machine once [NewKmod] has created a context, at heap location
    0. *)
Definition running : GoState Scripted :=
  snd (NewKmod (boot (machine 7 0))).

(** The running machine at a moment when the list of loaded modules cannot
    be read. *)
Definition unreadable : GoState Scripted :=
  let w := world running in
  mkState
    (mkScripted (sc_session w) (sc_load w) (-12, []) (sc_lookup w)
       (sc_from_name w) (sc_probe w) (sc_remove w) (sc_name w)
       (sc_live_sessions w) (sc_inserted w))
    (trace running) (heap running) (finalizers running).

(** The running machine at a moment when every module can be inserted and
    removed. *)
Definition healthy : GoState Scripted :=
  let w := world running in
  mkState
    (mkScripted (sc_session w) (sc_load w) (sc_loaded w) (sc_lookup w)
       (sc_from_name w) (fun _ => 0) (fun _ => 0) (sc_name w)
       (sc_live_sessions w) (sc_inserted w))
    (trace running) (heap running) (finalizers running).

(** The running machine after a second context was created. *)
Definition two_contexts : GoState Scripted := snd (NewKmod running).

(** ** Reading a trace *)



(** The calls that give a session back: [cleanup]'s two. *)
Definition is_release (e : Event) : bool :=
  match e with
  | EvUnloadResources _ | EvUnref _ => true
  | _ => false
  end.

(** The calls that create or release a session or a C string. *)
Definition manages_memory (e : Event) : bool :=
  match e with
  | EvKmodNew _ _ | EvLoadResources _ | EvUnloadResources _ | EvUnref _
  | EvCString _ | EvFree _ => true
  | _ => false
  end.

Definition is_panic {A : Type} (o : Outcome A) : bool :=
  match o with
  | Panic => true
  | Ret _ => false
  end.

(** A run that leaves the Go side as it found it. *)
Definition keeps_go_state {W A : Type} (s : GoState W)
    (r : Outcome A * GoState W) : Prop :=
  heap (snd r) = heap s /\ finalizers (snd r) = finalizers s.


(** A run whose calls release no session. *)
Definition releases_nothing {W A : Type} (s : GoState W)
    (r : Outcome A * GoState W) : Prop :=
  exists ext,
    trace (snd r) = trace s ++ ext
    /\ Forall (fun e => is_release e = false) ext.

(** * Proofs *)

(** ** Strings and statuses *)

Lemma append_empty_r (s : string) : s +:+ "" = s.
Proof.
  induction s as [|c s IH]; [reflexivity|].
  change (String c (s +:+ "") = String c s). now rewrite IH.
Qed.

Lemma append_assoc (a b c : string) : (a +:+ b) +:+ c = a +:+ (b +:+ c).
Proof.
  induction a as [|x a IH]; [reflexivity|].
  change (String x ((a +:+ b) +:+ c) = String x (a +:+ (b +:+ c))).
  now rewrite IH.
Qed.

Lemma mentions_refl (sub : string) : mentions sub sub.
Proof. exists ""%string, ""%string. simpl. now rewrite append_empty_r. Qed.

Lemma mentions_app_l (a b sub : string) :
  mentions a sub -> mentions (a +:+ b) sub.
Proof.
  intros (pre & post & ->). exists pre, (post +:+ b).
  now rewrite !append_assoc.
Qed.

Lemma mentions_app_r (a b sub : string) :
  mentions b sub -> mentions (a +:+ b) sub.
Proof.
  intros (pre & post & ->). exists (a +:+ pre), post.
  now rewrite !append_assoc.
Qed.

Create HintDb mentions.
#[local] Hint Resolve mentions_refl mentions_app_l mentions_app_r : mentions.

(** On every status but the least [C.int], Go's minus is the integer's. *)
Lemma cint_neg_exact (x : cint) :
  cint_min < x < 2 ^ 31 -> cint_neg x = - x.
Proof.
  unfold cint_neg, cint_wrap, cint_min. intros Hx.
  rewrite Z.mod_small by lia. lia.
Qed.

Lemma cint_neg_min : cint_neg cint_min = cint_min.
Proof. reflexivity. Qed.

Lemma Errorf_lookup (a m : string) :
  Errorf "Kmod : Failed to lookup %s - %s" [a; m]
  = Some ("Kmod : Failed to lookup " +:+ a +:+ " - " +:+ m).
Proof. unfold Errorf. f_equal.
  transitivity ("Kmod : Failed to lookup " +:+ a +:+ " - " +:+ (m +:+ ""));
    [reflexivity | now rewrite append_empty_r].
Qed.

Lemma Errorf_from_name (n m : string) :
  Errorf "Kmod : Could not get module %s - %s" [n; m]
  = Some ("Kmod : Could not get module " +:+ n +:+ " - " +:+ m).
Proof. unfold Errorf. f_equal.
  transitivity ("Kmod : Could not get module " +:+ n +:+ " - " +:+ (m +:+ ""));
    [reflexivity | now rewrite append_empty_r].
Qed.

Lemma Errorf_list (m : string) :
  Errorf ("Kmod: couldn't get the list of modules: %s" +:+ LF) [m]
  = Some ("Kmod: couldn't get the list of modules: " +:+ m +:+ LF).
Proof. reflexivity. Qed.

Lemma Errorf_prepare (m : string) :
  Errorf "Kmod: unable to prepare the kmod_ctx, leaving now - %s" [m]
  = Some ("Kmod: unable to prepare the kmod_ctx, leaving now - " +:+ m).
Proof. unfold Errorf. f_equal.
  transitivity ("Kmod: unable to prepare the kmod_ctx, leaving now - " +:+ (m +:+ ""));
    [reflexivity | now rewrite append_empty_r].
Qed.

Lemma Errorf_insert (n m : string) :
  Errorf "Could not insert module %s : %s" [n; m]
  = Some ("Could not " +:+ "insert" +:+ " module " +:+ n +:+ " : " +:+ m).
Proof. unfold Errorf. f_equal.
  transitivity ("Could not insert module " +:+ n +:+ " : " +:+ (m +:+ ""));
    [reflexivity | now rewrite append_empty_r].
Qed.

Lemma Errorf_remove (n m : string) :
  Errorf "Could not remove module %s : %s" [n; m]
  = Some ("Could not " +:+ "remove" +:+ " module " +:+ n +:+ " : " +:+ m).
Proof. unfold Errorf. f_equal.
  transitivity ("Could not remove module " +:+ n +:+ " : " +:+ (m +:+ ""));
    [reflexivity | now rewrite append_empty_r].
Qed.

(** ** Running the binding: what each function returns and leaves behind *)

Ltac run :=
  unfold mbind, mret, panic, ccall, cvoid, deref, store, alloc,
    runtime_SetFinalizer,
    goStrerror, C_CString, C_free, Module_Name; simpl.

Ltac split_status e := destruct (Z.ltb_spec e 0); try lia.

Section Runs.
Context {W : Type} `{Libkmod W}.
Implicit Types (s : GoState W) (kmod : loc) (k : Kmod).

Lemma traverse_run (l : klist) s :
  traverse l s
  = (Ret (map newModule l),
     mkState (traverse_world l (world s)) (trace s ++ traverse_events l)
       (heap s) (finalizers s)).
Proof.
  revert s. induction l as [|m next IH]; intros [w tr h f].
  - simpl. unfold mret. now rewrite app_nil_r.
  - simpl. run. rewrite IH. simpl. now rewrite <- app_assoc.
Qed.

Lemma newModuleList_run (l : klist) s :
  newModuleList l s
  = (Ret (mkModuleList (map newModule l)),
     mkState (adapt_world l (world s)) (trace s ++ adapt_events l)
       (heap s) (finalizers s)).
Proof.
  unfold newModuleList, mbind. rewrite traverse_run. run.
  unfold adapt_events, adapt_world. now rewrite <- app_assoc.
Qed.

Lemma List_run kmod k s st l w1 :
  heap s !! kmod = Some k ->
  kmod_module_new_from_loaded (ctx k) (world s) = (st, l, w1) ->
  List kmod s
  = if st <? 0 then
      (Ret ([], Some ("Kmod: couldn't get the list of modules: "
                      +:+ strerror (cint_neg st) +:+ LF)),
       mkState w1
         (trace s ++ [EvNewFromLoaded (ctx k); EvStrerror (cint_neg st)])
         (heap s) (finalizers s))
    else
      (Ret (map newModule l, None),
       mkState (adapt_world l w1)
         (trace s ++ EvNewFromLoaded (ctx k) :: adapt_events l)
         (heap s) (finalizers s)).
Proof.
  intros Hk Hcall. unfold List. run. rewrite Hk; simpl. rewrite Hcall; simpl.
  destruct (st <? 0).
  - run. rewrite Errorf_list. now rewrite <- app_assoc.
  - unfold mbind. rewrite newModuleList_run. run.
    now rewrite <- app_assoc.
Qed.

Lemma Lookup_run kmod k a s st l w1 :
  heap s !! kmod = Some k ->
  kmod_module_new_from_lookup (ctx k) a (world s) = (st, l, w1) ->
  Lookup kmod a s
  = if st <? 0 then
      (Ret ([], Some ("Kmod : Failed to lookup " +:+ a +:+ " - "
                      +:+ strerror (cint_neg st))),
       mkState w1
         (trace s ++ [EvCString a; EvNewFromLookup (ctx k) a; EvFree a;
                      EvStrerror (cint_neg st)])
         (heap s) (finalizers s))
    else
      (Ret (map newModule l, None),
       mkState (adapt_world l w1)
         (trace s ++ [EvCString a; EvNewFromLookup (ctx k) a; EvFree a]
            ++ adapt_events l)
         (heap s) (finalizers s)).
Proof.
  intros Hk Hcall. unfold Lookup. run. rewrite Hk; simpl. rewrite Hcall; simpl.
  destruct (st <? 0).
  - run. rewrite Errorf_lookup. now rewrite <- !app_assoc.
  - unfold mbind. rewrite newModuleList_run. run.
    now rewrite <- !app_assoc.
Qed.

Lemma Lookup_nil kmod a s :
  heap s !! kmod = None ->
  Lookup kmod a s
  = (Panic, mkState (world s) (trace s ++ [EvCString a]) (heap s)
              (finalizers s)).
Proof. intros Hk. unfold Lookup. run. now rewrite Hk. Qed.

Lemma ModuleFromName_run kmod k n s st m w1 :
  heap s !! kmod = Some k ->
  kmod_module_new_from_name (ctx k) n (world s) = (st, m, w1) ->
  ModuleFromName kmod n s
  = if st <? 0 then
      (Ret (None, Some ("Kmod : Could not get module " +:+ n +:+ " - "
                        +:+ strerror (cint_neg st))),
       mkState w1
         (trace s ++ [EvCString n; EvNewFromName (ctx k) n; EvFree n;
                      EvStrerror (cint_neg st)])
         (heap s) (finalizers s))
    else
      (Ret (Some (newModule m), None),
       mkState w1
         (trace s ++ [EvCString n; EvNewFromName (ctx k) n; EvFree n])
         (heap s) (finalizers s)).
Proof.
  intros Hk Hcall. unfold ModuleFromName. run. rewrite Hk; simpl. rewrite Hcall; simpl.
  destruct (st <? 0).
  - run. rewrite Errorf_from_name. now rewrite <- !app_assoc.
  - run. now rewrite <- !app_assoc.
Qed.

Lemma NewKmod_run s c w1 e w2 :
  kmod_new NULL NULL (world s) = (c, w1) ->
  kmod_load_resources c w1 = (e, w2) ->
  NewKmod s
  = if c =? NULL then
      (Ret (None, Some "Kmod: unable to create the kmod_ctx, leaving now"),
       mkState w1 (trace s ++ [EvKmodNew NULL NULL]) (heap s) (finalizers s))
    else if e <? 0 then
      (Ret (None,
            Some ("Kmod: unable to prepare the kmod_ctx, leaving now - "
                  +:+ strerror (cint_neg e))),
       mkState w2
         (trace s ++ [EvKmodNew NULL NULL; EvLoadResources c;
                      EvStrerror (cint_neg e)])
         (heap s) (finalizers s))
    else
      (Ret (Some (length (heap s)), None),
       mkState w2 (trace s ++ [EvKmodNew NULL NULL; EvLoadResources c])
         (heap s ++ [mkKmod c]) (finalizers s ++ [length (heap s)])).
Proof.
  intros Hnew Hload. unfold NewKmod. run. rewrite Hnew; simpl.
  destruct (c =? NULL); [reflexivity|].
  simpl. rewrite Hload; simpl. destruct (e <? 0).
  - run. rewrite Errorf_prepare. now rewrite <- !app_assoc.
  - run. now rewrite <- !app_assoc.
Qed.

Lemma cleanup_live kmod c s :
  heap s !! kmod = Some (mkKmod c) ->
  c <> NULL ->
  cleanup kmod s
  = (Ret tt,
     mkState (kmod_unref c (kmod_unload_resources c (world s)))
       (trace s ++ [EvUnloadResources c; EvUnref c])
       (<[kmod := mkKmod NULL]> (heap s)) (finalizers s)).
Proof.
  intros Hk Hc. unfold cleanup. run. rewrite Hk. simpl.
  destruct (Z.eqb_spec c NULL); [contradiction|].
  simpl. rewrite Hk. now rewrite <- !app_assoc.
Qed.

Lemma cleanup_inert kmod s :
  heap s !! kmod = Some (mkKmod NULL) ->
  cleanup kmod s = (Ret tt, s).
Proof. intros Hk. unfold cleanup. run. now rewrite Hk. Qed.

Lemma cleanup_times_inert n kmod s :
  heap s !! kmod = Some (mkKmod NULL) ->
  cleanup_times n kmod s = (Ret tt, s).
Proof.
  intros Hk. induction n as [|n IH]; simpl; [reflexivity|].
  now rewrite cleanup_inert.
Qed.

End Runs.

(** ** The two batches *)

Section Batches.
Context {W : Type} `{Libkmod W}.
Implicit Types (s : GoState W) (ms : list Module).

Lemma Insert_range_batch ms s :
  exists tr w2 r,
    Insert_range ms s
    = (Ret r, mkState w2 (trace s ++ tr) (heap s) (finalizers s))
    /\ batch probe_request probe_call "insert" ms (world s) tr w2 r.
Proof.
  revert s. induction ms as [|m ms IH]; intros [w tr0 h f]; simpl.
  - exists [], w, None. split; [|constructor].
    unfold mret. now rewrite app_nil_r.
  - run.
    destruct (kmod_module_probe_insert_module (Module_mod m) 0 NULL NULL
                NULL NULL w) as [c w1] eqn:Hcall.
    split_status c.
    + eexists _, w1, _. split; [|eapply batch_stop; eauto].
      run. rewrite Errorf_insert. now rewrite <- !app_assoc.
    + destruct (IH (mkState w1 (tr0 ++ [probe_request m]) h f))
        as (tr & w2 & r & Hrun & Hb).
      exists (probe_request m :: tr), w2, r.
      split; [|eapply batch_next; eauto].
      unfold probe_request in Hrun. rewrite Hrun. simpl.
      now rewrite <- app_assoc.
Qed.

Lemma Remove_range_batch ms s :
  exists tr w2 r,
    Remove_range ms s
    = (Ret r, mkState w2 (trace s ++ tr) (heap s) (finalizers s))
    /\ batch remove_request remove_call "remove" ms (world s) tr w2 r.
Proof.
  revert s. induction ms as [|m ms IH]; intros [w tr0 h f]; simpl.
  - exists [], w, None. split; [|constructor].
    unfold mret. now rewrite app_nil_r.
  - run.
    destruct (kmod_module_remove_module (Module_mod m) 0 w)
      as [c w1] eqn:Hcall.
    split_status c.
    + eexists _, w1, _. split; [|eapply batch_stop; eauto].
      run. rewrite Errorf_remove. now rewrite <- !app_assoc.
    + destruct (IH (mkState w1 (tr0 ++ [remove_request m]) h f))
        as (tr & w2 & r & Hrun & Hb).
      exists (remove_request m :: tr), w2, r.
      split; [|eapply batch_next; eauto].
      unfold remove_request in Hrun. rewrite Hrun. simpl.
      now rewrite <- app_assoc.
Qed.

(** A batch issues its own request and, on failure, the two calls that
    render the error: nothing else. *)
Lemma batch_calls request call verb ms w tr w2 r :
  batch request call verb ms w tr w2 r ->
  Forall (fun e => (exists m, In m ms /\ e = request m)
                   \/ (exists m, e = EvGetName m)
                   \/ (exists c, e = EvStrerror c)) tr.
Proof.
  induction 1 as [w|m ms w c w1 tr w2 r Hcall Hc Hb IH|m ms w c w1 Hcall Hc].
  - constructor.
  - constructor.
    + left. exists m. split; [now left | reflexivity].
    + eapply Forall_impl; [exact IH|].
      intros e [(m' & Hin & ->)|Hother]; [|now right].
      left. exists m'. split; [now right | reflexivity].
  - constructor; [|constructor; [|constructor; [|constructor]]].
    + left. exists m. split; [now left | reflexivity].
    + right. left. now exists (Module_mod m).
    + right. right. now exists (cint_neg c).
Qed.

Lemma insert_batch_never_removes call verb ms w tr w2 r :
  batch probe_request call verb ms w tr w2 r ->
  Forall (fun e => is_remove e = false) tr.
Proof.
  intros Hb. eapply Forall_impl; [exact (batch_calls _ _ _ _ _ _ _ _ Hb)|].
  intros e [(m & _ & ->)|[(m & ->)|(c & ->)]]; reflexivity.
Qed.

Lemma remove_batch_never_inserts call verb ms w tr w2 r :
  batch remove_request call verb ms w tr w2 r ->
  Forall (fun e => is_probe e = false) tr.
Proof.
  intros Hb. eapply Forall_impl; [exact (batch_calls _ _ _ _ _ _ _ _ Hb)|].
  intros e [(m & _ & ->)|[(m & ->)|(c & ->)]]; reflexivity.
Qed.

(** The batch relation is a function of the modules and the world. *)
Lemma batch_deterministic request call verb ms w tr w2 r tr' w2' r' :
  batch request call verb ms w tr w2 r ->
  batch request call verb ms w tr' w2' r' ->
  tr = tr' /\ w2 = w2' /\ r = r'.
Proof.
  intros Hb. revert tr' w2' r'.
  induction Hb as [w|m ms w c w1 tr w2 r Hcall Hc Hb IH|m ms w c w1 Hcall Hc];
    intros tr' w2' r' Hb'; inversion Hb'; subst;
    try (match goal with
         | H1 : call ?m ?w = _, H2 : call ?m ?w = _ |- _ =>
             rewrite H1 in H2; inversion H2; subst
         end);
    try lia; try (repeat split; reflexivity).
  destruct (IH _ _ _ ltac:(eassumption)) as (-> & -> & ->).
  repeat split; reflexivity.
Qed.


(** A batch that returns no error has served every module. *)
Lemma batch_success_all request call verb ms w tr w2 :
  batch request call verb ms w tr w2 None ->
  tr = map request ms.
Proof.
  remember None as r eqn:Hr. intros Hb.
  induction Hb as [w|m ms w c w1 tr w2 r Hcall Hc Hb IH|m ms w c w1 Hcall Hc];
    [reflexivity| |discriminate].
  simpl. now rewrite IH.
Qed.

(** Serving a run of modules and then meeting a negative status is the
    failing batch over the whole sequence. *)
Lemma batch_served_then_stop request call verb served m rest w tr wp c w1 :
  batch request call verb served w tr wp None ->
  call m wp = (c, w1) ->
  c < 0 ->
  batch request call verb (served ++ m :: rest) w
    (tr ++ [request m; EvGetName (Module_mod m); EvStrerror (cint_neg c)])
    w1
    (Some ("Could not " +:+ verb +:+ " module "
           +:+ kmod_module_get_name (Module_mod m) w1
           +:+ " : " +:+ strerror (cint_neg c))).
Proof.
  remember None as r eqn:Hr. intros Hb. revert Hr.
  induction Hb as [w|m0 ms w c0 w0 tr wp r Hcall0 Hc0 Hb IH|m0 ms w c0 w0 Hcall0 Hc0];
    intros Hr Hcall Hc; [| |discriminate]; simpl.
  - eapply batch_stop; eassumption.
  - eapply batch_next; [eassumption | assumption | now apply IH].
Qed.

Lemma batch_message_mentions verb (n e : string) :
  mentions ("Could not " +:+ verb +:+ " module " +:+ n +:+ " : " +:+ e) n
  /\ mentions ("Could not " +:+ verb +:+ " module " +:+ n +:+ " : " +:+ e) e.
Proof. split; auto 10 with mentions. Qed.

End Batches.

(** * The claims *)

Section Claims.
Context {W : Type} `{Libkmod W}.
Implicit Types (s : GoState W) (kmod : loc) (k : Kmod) (ms : list Module).

(** C1.  [Insert(name)] first resolves [name] with [Lookup] and returns
    Lookup's error unchanged if there is one.  Otherwise it runs the insert
    batch over the modules Lookup returned, in their order: one
    probe-and-insert call per module with flags 0 and every optional
    argument nil, stopping at the first negative status with an error that
    names the module and carries the rendered status.  Among the calls it
    issues after the lookup there is no remove call: nothing inserted
    earlier is taken back. *)
Theorem Insert_probes_each_module_in_order kmod (name : string) s :
  match Lookup kmod name s with
  | (Ret (ms, None), s1) =>
      exists tr w2 r,
        Insert kmod name s
        = (Ret r, mkState w2 (trace s1 ++ tr) (heap s1) (finalizers s1))
        /\ batch probe_request probe_call "insert" ms (world s1) tr w2 r
        /\ Forall (fun e => is_remove e = false) tr
  | (Ret (_, Some msg), s1) => Insert kmod name s = (Ret (Some msg), s1)
  | (Panic, s1) => Insert kmod name s = (Panic, s1)
  end.
Proof.
  unfold Insert, mbind.
  destruct (Lookup kmod name s) as [[[ms [msg|]]|] s1]; try reflexivity.
  destruct (Insert_range_batch ms s1) as (tr & w2 & r & Hrun & Hb).
  exists tr, w2, r. repeat split; try assumption.
  eapply insert_batch_never_removes; eassumption.
Qed.

(** C6.  [Remove(name)] first resolves [name] with [Lookup] and returns
    Lookup's error unchanged if there is one.  Otherwise it runs the remove
    batch over the modules Lookup returned, in their order: one remove call
    per module with flags 0, stopping at the first negative status with an
    error that names the module and carries the rendered status.  Among the
    calls it issues after the lookup there is no insert call: nothing
    removed earlier is put back. *)
Theorem Remove_removes_each_module_in_order kmod (name : string) s :
  match Lookup kmod name s with
  | (Ret (ms, None), s1) =>
      exists tr w2 r,
        Remove kmod name s
        = (Ret r, mkState w2 (trace s1 ++ tr) (heap s1) (finalizers s1))
        /\ batch remove_request remove_call "remove" ms (world s1) tr w2 r
        /\ Forall (fun e => is_probe e = false) tr
  | (Ret (_, Some msg), s1) => Remove kmod name s = (Ret (Some msg), s1)
  | (Panic, s1) => Remove kmod name s = (Panic, s1)
  end.
Proof.
  unfold Remove, mbind.
  destruct (Lookup kmod name s) as [[[ms [msg|]]|] s1]; try reflexivity.
  destruct (Remove_range_batch ms s1) as (tr & w2 & r & Hrun & Hb).
  exists tr, w2, r. repeat split; try assumption.
  eapply remove_batch_never_inserts; eassumption.
Qed.

(** C10.  If [Lookup(name)] succeeds with an empty sequence, [Insert(name)]
    and [Remove(name)] both return nil, in the very state Lookup left: no
    probe-insert and no remove call is issued. *)
Theorem empty_lookup_makes_Insert_and_Remove_succeed
    kmod (name : string) s s1 :
  Lookup kmod name s = (Ret ([], None), s1) ->
  Insert kmod name s = (Ret None, s1)
  /\ Remove kmod name s = (Ret None, s1).
Proof.
  intros HL. unfold Insert, Remove, mbind. rewrite HL. split; reflexivity.
Qed.

(** C2.  On a context that holds a live session [c], the first [cleanup]
    issues unload-resources and the session release once each, and sets
    [ctx] to nil.  From then on [cleanup] returns normally and changes
    nothing, however often it is called: the trace never gets a second
    release. *)
Theorem cleanup_is_idempotent kmod (c : ptr) s :
  heap s !! kmod = Some (mkKmod c) ->
  c <> NULL ->
  let s1 :=
    mkState (kmod_unref c (kmod_unload_resources c (world s)))
      (trace s ++ [EvUnloadResources c; EvUnref c])
      (<[kmod := mkKmod NULL]> (heap s)) (finalizers s) in
  cleanup kmod s = (Ret tt, s1)
  /\ heap s1 !! kmod = Some (mkKmod NULL)
  /\ cleanup kmod s1 = (Ret tt, s1)
  /\ forall n, cleanup_times (S n) kmod s = (Ret tt, s1).
Proof.
  intros Hk Hc s1.
  assert (Hinert : heap s1 !! kmod = Some (mkKmod NULL)).
  { subst s1. simpl. apply list_lookup_insert_eq.
    eapply lookup_lt_Some; eassumption. }
  repeat split.
  - now apply cleanup_live.
  - exact Hinert.
  - now apply cleanup_inert.
  - intros n. simpl. rewrite (cleanup_live kmod c s Hk Hc).
    now apply cleanup_times_inert.
Qed.

(** C4.  [NewKmod] returns the initialization error when kmod_new gives
    the null pointer; it returns the resource-load error, ending in the
    rendering of the negated status, when kmod_load_resources gives a
    negative status; in every other case it returns, with a nil error, a
    fresh context that holds the session and has its finalizer set.  It
    returns an error in these two cases only. *)
Theorem NewKmod_outcomes s (c : ptr) (w1 : W) (e : cint) (w2 : W) :
  kmod_new NULL NULL (world s) = (c, w1) ->
  kmod_load_resources c w1 = (e, w2) ->
  (c = NULL ->
   fst (NewKmod s)
   = Ret (None, Some "Kmod: unable to create the kmod_ctx, leaving now"))
  /\ (c <> NULL -> e < 0 ->
      fst (NewKmod s)
      = Ret (None,
             Some ("Kmod: unable to prepare the kmod_ctx, leaving now - "
                   +:+ strerror (cint_neg e))))
  /\ (c <> NULL -> 0 <= e ->
      exists kmod,
        fst (NewKmod s) = Ret (Some kmod, None)
        /\ heap s !! kmod = None
        /\ heap (snd (NewKmod s)) !! kmod = Some (mkKmod c)
        /\ In kmod (finalizers (snd (NewKmod s))))
  /\ ((exists r msg, fst (NewKmod s) = Ret (r, Some msg))
      <-> c = NULL \/ (c <> NULL /\ e < 0)).
Proof.
  intros Hnew Hload. rewrite (NewKmod_run s c w1 e w2 Hnew Hload).
  destruct (Z.eqb_spec c NULL) as [Hc|Hc]; [|split_status e]; simpl.
  - split; [reflexivity|]. split; [intros; contradiction|].
    split; [intros; contradiction|].
    split; [intros _; now left | intros _; now eexists _, _].
  - split; [intros; contradiction|]. split; [reflexivity|].
    split; [intros; lia|].
    split; [intros _; right; now split | intros _; now eexists _, _].
  - split; [intros; contradiction|]. split; [intros; lia|]. split.
    + intros _ _. exists (length (heap s)). split; [reflexivity|]. split.
      * apply lookup_ge_None. lia.
      * split; [|apply in_or_app; right; now left].
        rewrite lookup_app_r by lia. now rewrite Nat.sub_diag.
    + split; [intros (r & msg & Hr); discriminate|].
      intros [Hc'|[_ He]]; [contradiction | lia].
Qed.

(** C5.  On a context, [Lookup] returns an error exactly when
    kmod_module_new_from_lookup gives a negative status.  On any other
    status it returns, with a nil error, one handle per entry of the native
    list, whatever the length of that list: no entry gives the empty
    sequence, not an error. *)
Theorem Lookup_fails_iff_status_negative
    kmod k (a : string) s (st : cint) (l : klist) (w1 : W) :
  heap s !! kmod = Some k ->
  kmod_module_new_from_lookup (ctx k) a (world s) = (st, l, w1) ->
  ((exists ms msg, fst (Lookup kmod a s) = Ret (ms, Some msg)) <-> st < 0)
  /\ (0 <= st -> fst (Lookup kmod a s) = Ret (map newModule l, None))
  /\ (0 <= st -> l = [] -> fst (Lookup kmod a s) = Ret ([], None)).
Proof.
  intros Hk Hcall. rewrite (Lookup_run kmod k a s st l w1 Hk Hcall).
  split_status st; simpl.
  - split; [split; [intros _; assumption | intros _; now eexists _, _]|].
    split; intros; lia.
  - split; [split; [intros (ms & msg & Hr); discriminate | intros; lia]|].
    split; [reflexivity|]. intros _ ->. reflexivity.
Qed.

(** C9.  On a context, [List] returns an error exactly when
    kmod_module_new_from_loaded gives a negative status.  On any other
    status it returns, with a nil error, the handles of the native list's
    entries in the native order: the modules they wrap, read in sequence,
    are the list; an empty list gives the empty sequence. *)
Theorem List_fails_iff_status_negative
    kmod k s (st : cint) (l : klist) (w1 : W) :
  heap s !! kmod = Some k ->
  kmod_module_new_from_loaded (ctx k) (world s) = (st, l, w1) ->
  ((exists ms msg, fst (List kmod s) = Ret (ms, Some msg)) <-> st < 0)
  /\ (0 <= st ->
      exists ms,
        fst (List kmod s) = Ret (ms, None)
        /\ map Module_mod ms = l
        /\ forall i, ms !! i = newModule <$> l !! i)
  /\ (0 <= st -> l = [] -> fst (List kmod s) = Ret ([], None)).
Proof.
  intros Hk Hcall. rewrite (List_run kmod k s st l w1 Hk Hcall).
  split_status st; simpl.
  - split; [split; [intros _; assumption | intros _; now eexists _, _]|].
    split; intros; lia.
  - split; [split; [intros (ms & msg & Hr); discriminate | intros; lia]|].
    split; [|intros _ ->; reflexivity].
    intros _. exists (map newModule l). split; [reflexivity|]. split.
    + rewrite map_map. simpl. apply map_id.
    + intros i. apply list_lookup_fmap.
Qed.


(** C8.  At each of the six places where kmod.go receives a status from
    libkmod, a negative status makes the function return at once an error
    whose message contains the rendering, by strerror, of the negated
    status, and the name involved where there is one (the alias, the
    requested name, the module's name).  After the failing call the trace
    holds the rendering calls only: the call is not issued again.  [Insert]
    and [Remove] hand on Lookup's error as it is.  The negation is Go's on
    [C.int], which is the integer's on every status above the least. *)
Theorem negative_status_becomes_error :
  (forall s (c : ptr) (w1 : W) (e : cint) (w2 : W),
      kmod_new NULL NULL (world s) = (c, w1) ->
      c <> NULL ->
      kmod_load_resources c w1 = (e, w2) ->
      e < 0 ->
      exists msg,
        NewKmod s
        = (Ret (None, Some msg),
           mkState w2
             (trace s ++ [EvKmodNew NULL NULL; EvLoadResources c;
                          EvStrerror (cint_neg e)])
             (heap s) (finalizers s))
        /\ mentions msg (strerror (cint_neg e)))
  /\ (forall kmod k s (st : cint) (l : klist) (w1 : W),
        heap s !! kmod = Some k ->
        kmod_module_new_from_loaded (ctx k) (world s) = (st, l, w1) ->
        st < 0 ->
        exists msg,
          List kmod s
          = (Ret ([], Some msg),
             mkState w1
               (trace s ++ [EvNewFromLoaded (ctx k); EvStrerror (cint_neg st)])
               (heap s) (finalizers s))
          /\ mentions msg (strerror (cint_neg st)))
  /\ (forall kmod k (a : string) s (st : cint) (l : klist) (w1 : W),
        heap s !! kmod = Some k ->
        kmod_module_new_from_lookup (ctx k) a (world s) = (st, l, w1) ->
        st < 0 ->
        exists msg,
          Lookup kmod a s
          = (Ret ([], Some msg),
             mkState w1
               (trace s ++ [EvCString a; EvNewFromLookup (ctx k) a; EvFree a;
                            EvStrerror (cint_neg st)])
               (heap s) (finalizers s))
          /\ mentions msg a
          /\ mentions msg (strerror (cint_neg st)))
  /\ (forall kmod k (n : string) s (st : cint) (m : ptr) (w1 : W),
        heap s !! kmod = Some k ->
        kmod_module_new_from_name (ctx k) n (world s) = (st, m, w1) ->
        st < 0 ->
        exists msg,
          ModuleFromName kmod n s
          = (Ret (None, Some msg),
             mkState w1
               (trace s ++ [EvCString n; EvNewFromName (ctx k) n; EvFree n;
                            EvStrerror (cint_neg st)])
               (heap s) (finalizers s))
          /\ mentions msg n
          /\ mentions msg (strerror (cint_neg st)))
  /\ (forall kmod (name : string) s ms msg s1,
        Lookup kmod name s = (Ret (ms, Some msg), s1) ->
        Insert kmod name s = (Ret (Some msg), s1)
        /\ Remove kmod name s = (Ret (Some msg), s1))
  /\ (forall kmod (name : string) s served m rest s1 tr wp (c : cint) w1,
        Lookup kmod name s = (Ret (served ++ m :: rest, None), s1) ->
        batch probe_request probe_call "insert" served (world s1) tr wp None ->
        probe_call m wp = (c, w1) ->
        c < 0 ->
        exists msg,
          Insert kmod name s
          = (Ret (Some msg),
             mkState w1
               (trace s1 ++ tr ++ [probe_request m; EvGetName (Module_mod m);
                                   EvStrerror (cint_neg c)])
               (heap s1) (finalizers s1))
          /\ mentions msg (kmod_module_get_name (Module_mod m) w1)
          /\ mentions msg (strerror (cint_neg c)))
  /\ (forall kmod (name : string) s served m rest s1 tr wp (c : cint) w1,
        Lookup kmod name s = (Ret (served ++ m :: rest, None), s1) ->
        batch remove_request remove_call "remove" served (world s1) tr wp None ->
        remove_call m wp = (c, w1) ->
        c < 0 ->
        exists msg,
          Remove kmod name s
          = (Ret (Some msg),
             mkState w1
               (trace s1 ++ tr ++ [remove_request m; EvGetName (Module_mod m);
                                   EvStrerror (cint_neg c)])
               (heap s1) (finalizers s1))
          /\ mentions msg (kmod_module_get_name (Module_mod m) w1)
          /\ mentions msg (strerror (cint_neg c)))
  /\ (forall x : cint, cint_min < x < 0 -> cint_neg x = - x).
Proof.
  split; [|split; [|split; [|split; [|split; [|split; [|split]]]]]].
  - intros s c w1 e w2 Hnew Hc Hload He.
    rewrite (NewKmod_run s c w1 e w2 Hnew Hload).
    destruct (Z.eqb_spec c NULL); [contradiction|]. split_status e.
    eexists. split; [reflexivity | auto with mentions].
  - intros kmod k s st l w1 Hk Hcall Hst.
    rewrite (List_run kmod k s st l w1 Hk Hcall). split_status st.
    eexists. split; [reflexivity | auto with mentions].
  - intros kmod k a s st l w1 Hk Hcall Hst.
    rewrite (Lookup_run kmod k a s st l w1 Hk Hcall). split_status st.
    eexists. split; [reflexivity | split; auto 6 with mentions].
  - intros kmod k n s st m w1 Hk Hcall Hst.
    rewrite (ModuleFromName_run kmod k n s st m w1 Hk Hcall).
    split_status st.
    eexists. split; [reflexivity | split; auto 6 with mentions].
  - intros kmod name s ms msg s1 HL.
    unfold Insert, Remove, mbind. rewrite HL. now split.
  - intros kmod name s served m rest s1 tr wp c w1 HL Hserved Hcall Hc.
    unfold Insert, mbind. rewrite HL.
    destruct (Insert_range_batch (served ++ m :: rest) s1)
      as (tr' & w2 & r & Hrun & Hb).
    pose proof (batch_served_then_stop _ _ _ _ _ rest _ _ _ _ _
                  Hserved Hcall Hc) as Hb'.
    destruct (batch_deterministic _ _ _ _ _ _ _ _ _ _ _ Hb Hb')
      as (-> & -> & ->).
    eexists. split; [exact Hrun | apply batch_message_mentions].
  - intros kmod name s served m rest s1 tr wp c w1 HL Hserved Hcall Hc.
    unfold Remove, mbind. rewrite HL.
    destruct (Remove_range_batch (served ++ m :: rest) s1)
      as (tr' & w2 & r & Hrun & Hb).
    pose proof (batch_served_then_stop _ _ _ _ _ rest _ _ _ _ _
                  Hserved Hcall Hc) as Hb'.
    destruct (batch_deterministic _ _ _ _ _ _ _ _ _ _ _ Hb Hb')
      as (-> & -> & ->).
    eexists. split; [exact Hrun | apply batch_message_mentions].
  - intros x Hx. apply cint_neg_exact. unfold cint_min in *. lia.
Qed.

End Claims.

(** * The claims on the scripted machine *)

(** [NewKmod] when the session is created and its resources cannot be
    loaded: the error path of lines 96-98, for any native library. *)
Lemma NewKmod_load_failure_run {W : Type} `{Libkmod W}
    (s : GoState W) (c : ptr) (w1 : W) (e : cint) (w2 : W) :
  kmod_new NULL NULL (world s) = (c, w1) ->
  c <> NULL ->
  kmod_load_resources c w1 = (e, w2) ->
  e < 0 ->
  snd (NewKmod s)
  = mkState w2
      (trace s ++ [EvKmodNew NULL NULL; EvLoadResources c;
                   EvStrerror (cint_neg e)])
      (heap s) (finalizers s).
Proof.
  intros Hnew Hc Hload He. rewrite (NewKmod_run s c w1 e w2 Hnew Hload).
  destruct (Z.eqb_spec c NULL); [contradiction|]. now split_status e.
Qed.

(** C3.  The claim asks that the session be released when resource loading
    fails.  On a machine where kmod_new gives the session at 7 and
    kmod_load_resources gives -12, [NewKmod] returns the resource-load error
    after three C calls, none of which releases the session: the session
    stays live in the library, and no Go object or finalizer holds the
    pointer through which [cleanup] could release it later. *)
Theorem NewKmod_leaks_session_on_load_failure :
  let r := NewKmod (boot (machine 7 (-12))) in
  fst r
  = Ret (None,
         Some ("Kmod: unable to prepare the kmod_ctx, leaving now - "
               +:+ "Cannot allocate memory"))
  /\ trace (snd r) = [EvKmodNew NULL NULL; EvLoadResources 7; EvStrerror 12]
  /\ existsb (is_session_release 7) (trace (snd r)) = false
  /\ heap (snd r) = []
  /\ finalizers (snd r) = []
  /\ sc_live_sessions (world (snd r)) = 1.
Proof. vm_compute. repeat split; reflexivity. Qed.

Lemma Insert_probes_each_module_in_order_witness :
  exists tr w2 r,
    Insert 0%nat "snd" running
    = (Ret r,
       mkState w2 (trace (snd (Lookup 0%nat "snd" running)) ++ tr)
         (heap running) (finalizers running))
    /\ batch probe_request probe_call "insert"
         [newModule 11; newModule 12; newModule 13] (world running) tr w2 r
    /\ Forall (fun e => is_remove e = false) tr.
Proof. exact (Insert_probes_each_module_in_order 0%nat "snd" running). Defined.

Lemma Remove_removes_each_module_in_order_witness :
  exists tr w2 r,
    Remove 0%nat "snd" running
    = (Ret r,
       mkState w2 (trace (snd (Lookup 0%nat "snd" running)) ++ tr)
         (heap running) (finalizers running))
    /\ batch remove_request remove_call "remove"
         [newModule 11; newModule 12; newModule 13] (world running) tr w2 r
    /\ Forall (fun e => is_probe e = false) tr.
Proof. exact (Remove_removes_each_module_in_order 0%nat "snd" running). Defined.

Lemma cleanup_is_idempotent_witness :
  cleanup_times 3 0%nat running = cleanup 0%nat running
  /\ trace (snd (cleanup_times 3 0%nat running))
     = trace running ++ [EvUnloadResources 7; EvUnref 7]
  /\ heap (snd (cleanup_times 3 0%nat running)) = [mkKmod NULL].
Proof.
  destruct (cleanup_is_idempotent 0%nat 7 running) as (H1 & _ & _ & H4);
    [reflexivity | discriminate |].
  rewrite H1, (H4 2%nat). repeat split; reflexivity.
Defined.

Lemma NewKmod_outcomes_witness :
  fst (NewKmod (boot (machine NULL 0)))
  = Ret (None, Some "Kmod: unable to create the kmod_ctx, leaving now")
  /\ fst (NewKmod (boot (machine 7 (-12))))
     = Ret (None,
            Some ("Kmod: unable to prepare the kmod_ctx, leaving now - "
                  +:+ "Cannot allocate memory"))
  /\ exists kmod,
       fst (NewKmod (boot (machine 7 0))) = Ret (Some kmod, None)
       /\ heap (boot (machine 7 0)) !! kmod = None
       /\ heap running !! kmod = Some (mkKmod 7)
       /\ In kmod (finalizers running).
Proof.
  split; [|split].
  - edestruct (NewKmod_outcomes (boot (machine NULL 0))) as (Hnull & _);
      [reflexivity | reflexivity |].
    apply Hnull. reflexivity.
  - edestruct (NewKmod_outcomes (boot (machine 7 (-12)))) as (_ & Hload & _);
      [reflexivity | reflexivity |].
    apply Hload; [discriminate | reflexivity].
  - edestruct (NewKmod_outcomes (boot (machine 7 0))) as (_ & _ & Hok & _);
      [reflexivity | reflexivity |].
    apply Hok; [discriminate | discriminate].
Defined.

Lemma Lookup_fails_iff_status_negative_witness :
  (exists ms msg, fst (Lookup 0%nat "zzz" running) = Ret (ms, Some msg))
  /\ fst (Lookup 0%nat "none" running) = Ret ([], None)
  /\ fst (Lookup 0%nat "snd" running)
     = Ret ([newModule 11; newModule 12; newModule 13], None).
Proof.
  split; [|split].
  - edestruct (Lookup_fails_iff_status_negative 0%nat (mkKmod 7) "zzz" running)
      as (Hiff & _); [reflexivity | reflexivity |].
    apply Hiff. reflexivity.
  - edestruct (Lookup_fails_iff_status_negative 0%nat (mkKmod 7) "none" running)
      as (_ & _ & Hempty); [reflexivity | reflexivity |].
    apply Hempty; [discriminate | reflexivity].
  - edestruct (Lookup_fails_iff_status_negative 0%nat (mkKmod 7) "snd" running)
      as (_ & Hok & _); [reflexivity | reflexivity |].
    apply Hok. discriminate.
Defined.

Lemma List_fails_iff_status_negative_witness :
  exists ms,
    fst (List 0%nat running) = Ret (ms, None)
    /\ map Module_mod ms = [21; 22]
    /\ forall i, ms !! i = newModule <$> [21; 22] !! i.
Proof.
  edestruct (List_fails_iff_status_negative 0%nat (mkKmod 7) running)
    as (_ & Hok & _); [reflexivity | reflexivity |].
  apply Hok. discriminate.
Defined.


Lemma empty_lookup_makes_Insert_and_Remove_succeed_witness :
  Insert 0%nat "none" running = (Ret None, snd (Lookup 0%nat "none" running))
  /\ Remove 0%nat "none" running
     = (Ret None, snd (Lookup 0%nat "none" running)).
Proof.
  apply empty_lookup_makes_Insert_and_Remove_succeed. reflexivity.
Defined.

Lemma negative_status_becomes_error_witness :
  (exists msg,
      fst (Insert 0%nat "snd" running) = Ret (Some msg)
      /\ mentions msg "snd_b"
      /\ mentions msg "No such device")
  /\ (exists msg,
         fst (List 0%nat unreadable) = Ret ([], Some msg)
         /\ mentions msg "Cannot allocate memory").
Proof.
  destruct (@negative_status_becomes_error Scripted _)
    as (_ & HList & _ & _ & _ & HInsert & _).
  split.
  - edestruct (HInsert 0%nat "snd" running [newModule 11] (newModule 12)
                 [newModule 13]) as (msg & Hrun & Hname & Herr).
    + reflexivity.
    + eapply batch_next; [reflexivity | discriminate | apply batch_done].
    + reflexivity.
    + reflexivity.
    + exists msg. rewrite Hrun. split; [reflexivity | split; assumption].
  - destruct (HList 0%nat (mkKmod 7) unreadable (-12) [] (world unreadable))
      as (msg & Hrun & Herr); [reflexivity | reflexivity | reflexivity |].
    exists msg. rewrite Hrun. split; [reflexivity | exact Herr].
Defined.

(** * Beyond the claims: the shape of every run *)


Lemma quiet_no_release (tr : list Event) :
  Forall (fun e => manages_memory e = false) tr ->
  Forall (fun e => is_release e = false) tr.
Proof.
  intros Hq. eapply Forall_impl; [exact Hq|].
  intros e He. destruct e; try discriminate; reflexivity.
Qed.

Lemma traverse_events_quiet (l : klist) :
  Forall (fun e => manages_memory e = false) (traverse_events l).
Proof. induction l as [|m l IH]; simpl; constructor; auto. Qed.

Lemma adapt_events_quiet (l : klist) :
  Forall (fun e => manages_memory e = false) (adapt_events l).
Proof.
  unfold adapt_events. apply Forall_app. split.
  - apply traverse_events_quiet.
  - constructor; [reflexivity | constructor].
Qed.

Section Shapes.
Context {W : Type} `{Libkmod W}.
Implicit Types (s : GoState W) (kmod : loc) (k : Kmod) (ms : list Module).

Lemma batch_quiet request call verb ms w tr w2 r :
  (forall m, manages_memory (request m) = false) ->
  batch request call verb ms w tr w2 r ->
  Forall (fun e => manages_memory e = false) tr.
Proof.
  intros Hreq Hb.
  eapply Forall_impl; [exact (batch_calls _ _ _ _ _ _ _ _ Hb)|].
  intros e [(m & _ & ->)|[(m & ->)|(c & ->)]]; [apply Hreq | | ]; reflexivity.
Qed.

(** [List] on a context: the enumeration call, then calls that touch no
    session and no C string. *)
Lemma List_shape kmod k s :
  heap s !! kmod = Some k ->
  exists r w2 rest,
    List kmod s
    = (Ret r,
       mkState w2 (trace s ++ EvNewFromLoaded (ctx k) :: rest)
         (heap s) (finalizers s))
    /\ Forall (fun e => manages_memory e = false) rest.
Proof.
  intros Hk.
  destruct (kmod_module_new_from_loaded (ctx k) (world s))
    as [[st l] w1] eqn:Hcall.
  rewrite (List_run kmod k s st l w1 Hk Hcall). destruct (st <? 0).
  - eexists _, _, _. split; [reflexivity|].
    constructor; [reflexivity | constructor].
  - eexists _, _, _. split; [reflexivity | apply adapt_events_quiet].
Qed.

Lemma Lookup_shape kmod k (a : string) s :
  heap s !! kmod = Some k ->
  exists r w2 rest,
    Lookup kmod a s
    = (Ret r,
       mkState w2
         (trace s ++ EvCString a :: EvNewFromLookup (ctx k) a :: EvFree a
                       :: rest)
         (heap s) (finalizers s))
    /\ Forall (fun e => manages_memory e = false) rest.
Proof.
  intros Hk.
  destruct (kmod_module_new_from_lookup (ctx k) a (world s))
    as [[st l] w1] eqn:Hcall.
  rewrite (Lookup_run kmod k a s st l w1 Hk Hcall). destruct (st <? 0).
  - eexists _, _, _. split; [reflexivity|].
    constructor; [reflexivity | constructor].
  - eexists _, _, _. split; [reflexivity | apply adapt_events_quiet].
Qed.

Lemma ModuleFromName_shape kmod k (n : string) s :
  heap s !! kmod = Some k ->
  exists r w2 rest,
    ModuleFromName kmod n s
    = (Ret r,
       mkState w2
         (trace s ++ EvCString n :: EvNewFromName (ctx k) n :: EvFree n
                       :: rest)
         (heap s) (finalizers s))
    /\ Forall (fun e => manages_memory e = false) rest.
Proof.
  intros Hk.
  destruct (kmod_module_new_from_name (ctx k) n (world s))
    as [[st m] w1] eqn:Hcall.
  rewrite (ModuleFromName_run kmod k n s st m w1 Hk Hcall).
  destruct (st <? 0).
  - eexists _, _, _. split; [reflexivity|].
    constructor; [reflexivity | constructor].
  - eexists _, _, _. split; [reflexivity | constructor].
Qed.

Lemma Insert_shape kmod k (a : string) s :
  heap s !! kmod = Some k ->
  exists r w2 rest,
    Insert kmod a s
    = (Ret r,
       mkState w2
         (trace s ++ EvCString a :: EvNewFromLookup (ctx k) a :: EvFree a
                       :: rest)
         (heap s) (finalizers s))
    /\ Forall (fun e => manages_memory e = false) rest.
Proof.
  intros Hk.
  destruct (Lookup_shape kmod k a s Hk) as ([ms err] & w1 & rest & HL & Hq).
  unfold Insert, mbind. rewrite HL. destruct err as [msg|].
  - eexists _, _, _. split; [reflexivity | exact Hq].
  - match goal with
    | |- context [Insert_range ms ?s1] =>
        destruct (Insert_range_batch ms s1) as (tr & w2 & r & Hrun & Hb)
    end.
    rewrite Hrun. simpl. exists r, w2, (rest ++ tr). split.
    + now rewrite <- app_assoc.
    + apply Forall_app. split; [exact Hq|].
      eapply batch_quiet; [|exact Hb]. reflexivity.
Qed.

Lemma Remove_shape kmod k (a : string) s :
  heap s !! kmod = Some k ->
  exists r w2 rest,
    Remove kmod a s
    = (Ret r,
       mkState w2
         (trace s ++ EvCString a :: EvNewFromLookup (ctx k) a :: EvFree a
                       :: rest)
         (heap s) (finalizers s))
    /\ Forall (fun e => manages_memory e = false) rest.
Proof.
  intros Hk.
  destruct (Lookup_shape kmod k a s Hk) as ([ms err] & w1 & rest & HL & Hq).
  unfold Remove, mbind. rewrite HL. destruct err as [msg|].
  - eexists _, _, _. split; [reflexivity | exact Hq].
  - match goal with
    | |- context [Remove_range ms ?s1] =>
        destruct (Remove_range_batch ms s1) as (tr & w2 & r & Hrun & Hb)
    end.
    rewrite Hrun. simpl. exists r, w2, (rest ++ tr). split.
    + now rewrite <- app_assoc.
    + apply Forall_app. split; [exact Hq|].
      eapply batch_quiet; [|exact Hb]. reflexivity.
Qed.

(** With a nil receiver the dereference panics; [Lookup] and
    [ModuleFromName] have made the C copy of their argument by then. *)
Lemma List_nil kmod s :
  heap s !! kmod = None -> List kmod s = (Panic, s).
Proof. intros Hk. unfold List. run. now rewrite Hk. Qed.

Lemma cleanup_nil kmod s :
  heap s !! kmod = None -> cleanup kmod s = (Panic, s).
Proof. intros Hk. unfold cleanup. run. now rewrite Hk. Qed.

Lemma ModuleFromName_nil kmod (n : string) s :
  heap s !! kmod = None ->
  ModuleFromName kmod n s
  = (Panic, mkState (world s) (trace s ++ [EvCString n]) (heap s)
              (finalizers s)).
Proof. intros Hk. unfold ModuleFromName. run. now rewrite Hk. Qed.

(** [cleanup] on an object, whatever it holds. *)
Lemma cleanup_returns kmod k s :
  heap s !! kmod = Some k ->
  exists s1, cleanup kmod s = (Ret tt, s1).
Proof.
  intros Hk. destruct k as [c]. destruct (Z.eq_dec c NULL) as [->|Hc].
  - exists s. now apply cleanup_inert.
  - eexists. exact (cleanup_live kmod c s Hk Hc).
Qed.

End Shapes.

(** * Beyond the claims: properties of kmod.go *)

Section Extras.
Context {W : Type} `{Libkmod W}.
Implicit Types (s : GoState W) (kmod : loc) (k : Kmod) (ms : list Module).

(** X1.  A method of [*Kmod] panics exactly when its receiver is nil.  On an
    allocated context [cleanup], [List], [Lookup], [ModuleFromName], [Insert]
    and [Remove] return normally whatever the native library answers, also
    after the context was released; [NewKmod] never panics. *)
Theorem operations_panic_iff_nil_receiver kmod (a : string) s :
  (is_panic (fst (cleanup kmod s)) = true <-> heap s !! kmod = None)
  /\ (is_panic (fst (List kmod s)) = true <-> heap s !! kmod = None)
  /\ (is_panic (fst (Lookup kmod a s)) = true <-> heap s !! kmod = None)
  /\ (is_panic (fst (ModuleFromName kmod a s)) = true
      <-> heap s !! kmod = None)
  /\ (is_panic (fst (Insert kmod a s)) = true <-> heap s !! kmod = None)
  /\ (is_panic (fst (Remove kmod a s)) = true <-> heap s !! kmod = None)
  /\ is_panic (fst (NewKmod s)) = false.
Proof.
  assert (HNew : is_panic (fst (NewKmod s)) = false).
  { destruct (kmod_new NULL NULL (world s)) as [c w1] eqn:Hnew.
    destruct (kmod_load_resources c w1) as [e w2] eqn:Hload.
    rewrite (NewKmod_run s c w1 e w2 Hnew Hload).
    destruct (c =? NULL); [reflexivity|]. now destruct (e <? 0). }
  destruct (heap s !! kmod) as [k|] eqn:Hk.
  - destruct (cleanup_returns kmod k s Hk) as (s1 & ->).
    destruct (List_shape kmod k s Hk) as (? & ? & ? & -> & _).
    destruct (Lookup_shape kmod k a s Hk) as (? & ? & ? & -> & _).
    destruct (ModuleFromName_shape kmod k a s Hk) as (? & ? & ? & -> & _).
    destruct (Insert_shape kmod k a s Hk) as (? & ? & ? & -> & _).
    destruct (Remove_shape kmod k a s Hk) as (? & ? & ? & -> & _).
    simpl. repeat (split; [split; discriminate|]). exact HNew.
  - rewrite (cleanup_nil kmod s Hk), (List_nil kmod s Hk),
      (Lookup_nil kmod a s Hk), (ModuleFromName_nil kmod a s Hk).
    unfold Insert, Remove, mbind. rewrite (Lookup_nil kmod a s Hk).
    simpl. repeat (split; [split; reflexivity|]). exact HNew.
Qed.

(** X2.  With a nil receiver, [Lookup], [ModuleFromName], [Insert] and
    [Remove] panic after [C.CString] has allocated the C copy of their
    argument and before [C.free]: the run ends with that one allocation in
    the trace, no native libkmod call and no free.  [List] and [cleanup]
    panic before any call. *)
Theorem nil_receiver_leaks_the_C_string kmod (a : string) s :
  heap s !! kmod = None ->
  let leaked :=
    mkState (world s) (trace s ++ [EvCString a]) (heap s) (finalizers s) in
  Lookup kmod a s = (Panic, leaked)
  /\ ModuleFromName kmod a s = (Panic, leaked)
  /\ Insert kmod a s = (Panic, leaked)
  /\ Remove kmod a s = (Panic, leaked)
  /\ List kmod s = (Panic, s)
  /\ cleanup kmod s = (Panic, s).
Proof.
  intros Hk leaked. subst leaked.
  unfold Insert, Remove, mbind.
  rewrite (Lookup_nil kmod a s Hk), (ModuleFromName_nil kmod a s Hk),
    (List_nil kmod s Hk), (cleanup_nil kmod s Hk).
  repeat split; reflexivity.
Qed.


(** X4.  [List], [Lookup], [ModuleFromName], [Insert] and [Remove] leave the
    Go heap and the registered finalizers exactly as they found them, on
    every path, the panic included: a context's [ctx] field is written by
    [cleanup] only. *)
Theorem queries_and_batches_keep_the_go_state kmod (a : string) s :
  keeps_go_state s (List kmod s)
  /\ keeps_go_state s (Lookup kmod a s)
  /\ keeps_go_state s (ModuleFromName kmod a s)
  /\ keeps_go_state s (Insert kmod a s)
  /\ keeps_go_state s (Remove kmod a s).
Proof.
  unfold keeps_go_state. destruct (heap s !! kmod) as [k|] eqn:Hk.
  - destruct (List_shape kmod k s Hk) as (? & ? & ? & -> & _).
    destruct (Lookup_shape kmod k a s Hk) as (? & ? & ? & -> & _).
    destruct (ModuleFromName_shape kmod k a s Hk) as (? & ? & ? & -> & _).
    destruct (Insert_shape kmod k a s Hk) as (? & ? & ? & -> & _).
    destruct (Remove_shape kmod k a s Hk) as (? & ? & ? & -> & _).
    simpl. repeat split; reflexivity.
  - unfold Insert, Remove, mbind.
    rewrite (List_nil kmod s Hk), (Lookup_nil kmod a s Hk),
      (ModuleFromName_nil kmod a s Hk).
    simpl. repeat split; reflexivity.
Qed.

(** X5.  A context that [NewKmod] has just returned holds the session that
    kmod_new created, and [cleanup] on it releases that very session: the
    four native calls of the whole life are kmod_new, kmod_load_resources,
    kmod_unload_resources and kmod_unref, the last three on the same
    non-null pointer, and the context ends inert. *)
Theorem NewKmod_then_cleanup_releases_the_session s kmod s1 :
  NewKmod s = (Ret (Some kmod, None), s1) ->
  exists (c : ptr) s2,
    c <> NULL
    /\ c = fst (kmod_new NULL NULL (world s))
    /\ heap s1 !! kmod = Some (mkKmod c)
    /\ cleanup kmod s1 = (Ret tt, s2)
    /\ trace s2
       = trace s ++ [EvKmodNew NULL NULL; EvLoadResources c;
                     EvUnloadResources c; EvUnref c]
    /\ heap s2 !! kmod = Some (mkKmod NULL).
Proof.
  destruct (kmod_new NULL NULL (world s)) as [c w1] eqn:Hnew.
  destruct (kmod_load_resources c w1) as [e w2] eqn:Hload.
  rewrite (NewKmod_run s c w1 e w2 Hnew Hload).
  destruct (Z.eqb_spec c NULL) as [Hc|Hc]; [discriminate|].
  destruct (e <? 0); [discriminate|].
  intros Heq. inversion Heq; subst; clear Heq.
  assert (Hk : heap
                 (mkState w2
                    (trace s ++ [EvKmodNew NULL NULL; EvLoadResources c])
                    (heap s ++ [mkKmod c])
                    (finalizers s ++ [length (heap s)]))
               !! length (heap s) = Some (mkKmod c)).
  { simpl. rewrite lookup_app_r by lia. now rewrite Nat.sub_diag. }
  eexists c, _. split; [exact Hc|]. split; [reflexivity|].
  split; [exact Hk|]. split; [exact (cleanup_live _ c _ Hk Hc)|].
  simpl. split; [now rewrite <- app_assoc|].
  apply list_lookup_insert_eq. rewrite length_app. simpl. lia.
Qed.

(** X6.  Contexts do not interfere on the Go side: [cleanup] on one context
    leaves every other object of the heap as it was, and [NewKmod] changes
    no existing object and never returns the location of one. *)
Theorem contexts_are_independent kmod (other : loc) (v : Kmod) s :
  heap s !! other = Some v ->
  (kmod <> other -> heap (snd (cleanup kmod s)) !! other = Some v)
  /\ heap (snd (NewKmod s)) !! other = Some v
  /\ (forall fresh err, fst (NewKmod s) = Ret (Some fresh, err) ->
      fresh <> other).
Proof.
  intros Hv. split; [|].
  - intros Hne. destruct (heap s !! kmod) as [[c]|] eqn:Hk.
    + destruct (Z.eq_dec c NULL) as [->|Hc].
      * now rewrite (cleanup_inert kmod s Hk).
      * rewrite (cleanup_live kmod c s Hk Hc). simpl.
        now rewrite list_lookup_insert_ne.
    + now rewrite (cleanup_nil kmod s Hk).
  - pose proof (lookup_lt_Some _ _ _ Hv) as Hlt.
    destruct (kmod_new NULL NULL (world s)) as [c w1] eqn:Hnew.
    destruct (kmod_load_resources c w1) as [e w2] eqn:Hload.
    rewrite (NewKmod_run s c w1 e w2 Hnew Hload).
    destruct (c =? NULL); [|destruct (e <? 0)]; simpl.
    + split; [exact Hv | discriminate].
    + split; [exact Hv | discriminate].
    + split; [now rewrite lookup_app_l|].
      intros fresh err Heq. inversion Heq; subst. lia.
Qed.


(** X8.  When [Lookup] has found the modules [ms] and [Insert] (or [Remove])
    returns nil, every module of [ms] was requested exactly once, in the
    order of [ms], and nothing else was called after the lookup: the calls
    since the lookup are the requests for [ms], one for one. *)
Theorem nil_result_means_every_module_was_served
    kmod (name : string) s ms s1 :
  Lookup kmod name s = (Ret (ms, None), s1) ->
  (forall s2, Insert kmod name s = (Ret None, s2) ->
              trace s2 = trace s1 ++ map probe_request ms)
  /\ (forall s2, Remove kmod name s = (Ret None, s2) ->
                 trace s2 = trace s1 ++ map remove_request ms).
Proof.
  intros HL. unfold Insert, Remove, mbind. rewrite HL. split; intros s2.
  - destruct (Insert_range_batch ms s1) as (tr & w2 & r & -> & Hb).
    intros Heq. inversion Heq; subst; clear Heq. simpl.
    now rewrite (batch_success_all _ _ _ _ _ _ _ Hb).
  - destruct (Remove_range_batch ms s1) as (tr & w2 & r & -> & Hb).
    intros Heq. inversion Heq; subst; clear Heq. simpl.
    now rewrite (batch_success_all _ _ _ _ _ _ _ Hb).
Qed.


(** X10.  [NewKmod] allocates exactly when it succeeds.  If it returns an
    error, the context it returns is nil, and the Go heap and the finalizers
    are untouched; if it returns a nil error, the context is the one new
    object of the heap, it holds a non-null session and it is the one new
    entry of the finalizers. *)
Theorem NewKmod_allocates_iff_it_succeeds s :
  (forall r msg,
      fst (NewKmod s) = Ret (r, Some msg) ->
      r = None /\ keeps_go_state s (NewKmod s))
  /\ (forall r,
         fst (NewKmod s) = Ret (r, None) ->
         exists c : ptr,
           c <> NULL
           /\ r = Some (length (heap s))
           /\ heap (snd (NewKmod s)) = heap s ++ [mkKmod c]
           /\ finalizers (snd (NewKmod s))
              = finalizers s ++ [length (heap s)]).
Proof.
  unfold keeps_go_state.
  destruct (kmod_new NULL NULL (world s)) as [c w1] eqn:Hnew.
  destruct (kmod_load_resources c w1) as [e w2] eqn:Hload.
  rewrite (NewKmod_run s c w1 e w2 Hnew Hload).
  destruct (Z.eqb_spec c NULL) as [Hc|Hc]; [|destruct (e <? 0)]; simpl.
  - split; [|discriminate].
    intros r msg Heq. inversion Heq. now repeat split.
  - split; [|discriminate].
    intros r msg Heq. inversion Heq. now repeat split.
  - split; [discriminate|].
    intros r Heq. inversion Heq. exists c. now repeat split.
Qed.

(** X11.  [NewKmod] calls kmod_load_resources only on the session kmod_new
    has just returned, and only if that session is not null. *)
Theorem NewKmod_loads_only_a_created_session s (ext : list Event) (c : ptr) :
  trace (snd (NewKmod s)) = trace s ++ ext ->
  In (EvLoadResources c) ext ->
  c <> NULL /\ c = fst (kmod_new NULL NULL (world s)).
Proof.
  destruct (kmod_new NULL NULL (world s)) as [c0 w1] eqn:Hnew.
  destruct (kmod_load_resources c0 w1) as [e w2] eqn:Hload.
  rewrite (NewKmod_run s c0 w1 e w2 Hnew Hload).
  destruct (Z.eqb_spec c0 NULL) as [Hc|Hc]; [|destruct (e <? 0)]; simpl;
    intros Hext Hin; apply app_inv_head in Hext; subst ext; simpl in Hin;
    repeat match goal with
           | H : _ \/ _ |- _ => destruct H
           | H : False |- _ => destruct H
           | H : EvLoadResources _ = EvLoadResources _ |- _ =>
               inversion H; subst; clear H
           | H : _ = EvLoadResources _ |- _ => discriminate H
           end;
    now split.
Qed.

(** X12.  Only [cleanup] gives a session back.  Whatever the receiver and
    whatever the native library answers, no call that [NewKmod], [List],
    [Lookup], [ModuleFromName], [Insert] or [Remove] issues is
    kmod_unload_resources or kmod_unref. *)
Theorem only_cleanup_releases_a_session kmod (a : string) s :
  releases_nothing s (NewKmod s)
  /\ releases_nothing s (List kmod s)
  /\ releases_nothing s (Lookup kmod a s)
  /\ releases_nothing s (ModuleFromName kmod a s)
  /\ releases_nothing s (Insert kmod a s)
  /\ releases_nothing s (Remove kmod a s).
Proof.
  unfold releases_nothing. split.
  { destruct (kmod_new NULL NULL (world s)) as [c w1] eqn:Hnew.
    destruct (kmod_load_resources c w1) as [e w2] eqn:Hload.
    rewrite (NewKmod_run s c w1 e w2 Hnew Hload).
    destruct (c =? NULL); [|destruct (e <? 0)]; simpl;
      eexists; (split; [reflexivity|]);
      repeat (constructor; [reflexivity|]); constructor. }
  destruct (heap s !! kmod) as [k|] eqn:Hk.
  - destruct (List_shape kmod k s Hk) as (? & ? & r0 & -> & Hq0).
    destruct (Lookup_shape kmod k a s Hk) as (? & ? & r1 & -> & Hq1).
    destruct (ModuleFromName_shape kmod k a s Hk) as (? & ? & r2 & -> & Hq2).
    destruct (Insert_shape kmod k a s Hk) as (? & ? & r3 & -> & Hq3).
    destruct (Remove_shape kmod k a s Hk) as (? & ? & r4 & -> & Hq4).
    simpl.
    split; [|split; [|split; [|split]]]; eexists; (split; [reflexivity|]);
      repeat (constructor; [reflexivity|]); now apply quiet_no_release.
  - unfold Insert, Remove, mbind.
    rewrite (List_nil kmod s Hk), (Lookup_nil kmod a s Hk),
      (ModuleFromName_nil kmod a s Hk). simpl.
    split; [exists []; split; [now rewrite app_nil_r | constructor]|].
    split; [|split; [|split]]; eexists; (split; [reflexivity|]);
      repeat (constructor; [reflexivity|]); constructor.
Qed.

End Extras.

(** * The extra properties on the scripted machine *)

Lemma operations_panic_iff_nil_receiver_witness :
  is_panic (fst (Lookup 5%nat "snd" running)) = true
  /\ is_panic (fst (cleanup 5%nat running)) = true
  /\ is_panic (fst (Insert 0%nat "snd" running)) = false.
Proof.
  destruct (operations_panic_iff_nil_receiver 5%nat "snd" running)
    as (Hc & _ & HL & _).
  destruct (operations_panic_iff_nil_receiver 0%nat "snd" running)
    as (_ & _ & _ & _ & HI & _).
  split; [apply HL; reflexivity|]. split; [apply Hc; reflexivity|].
  destruct (is_panic (fst (Insert 0%nat "snd" running))) eqn:E;
    [|reflexivity].
  destruct HI as [HI _]. discriminate (HI eq_refl).
Defined.

Lemma nil_receiver_leaks_the_C_string_witness :
  trace (snd (Lookup 5%nat "snd" running))
  = trace running ++ [EvCString "snd"]
  /\ fst (Insert 5%nat "snd" running) = Panic.
Proof.
  destruct (nil_receiver_leaks_the_C_string 5%nat "snd" running)
    as (HL & _ & HI & _); [reflexivity|].
  rewrite HL, HI. split; reflexivity.
Defined.


Lemma NewKmod_then_cleanup_releases_the_session_witness :
  exists (c : ptr) s2,
    c <> NULL
    /\ c = fst (kmod_new NULL NULL (world (boot (machine 7 0))))
    /\ heap running !! 0%nat = Some (mkKmod c)
    /\ cleanup 0%nat running = (Ret tt, s2)
    /\ trace s2
       = [EvKmodNew NULL NULL; EvLoadResources c; EvUnloadResources c;
          EvUnref c]
    /\ heap s2 !! 0%nat = Some (mkKmod NULL).
Proof.
  destruct (NewKmod_then_cleanup_releases_the_session (boot (machine 7 0))
              0%nat running) as (c & s2 & Hs); [reflexivity|].
  exists c, s2. exact Hs.
Defined.

Lemma contexts_are_independent_witness :
  heap (snd (cleanup 0%nat two_contexts)) !! 1%nat = Some (mkKmod 7)
  /\ heap (snd (NewKmod two_contexts)) !! 1%nat = Some (mkKmod 7).
Proof.
  destruct (contexts_are_independent 0%nat 1%nat (mkKmod 7) two_contexts)
    as (Hc & Hn & _); [reflexivity|].
  split; [apply Hc; discriminate | exact Hn].
Defined.


Lemma nil_result_means_every_module_was_served_witness :
  trace (snd (Insert 0%nat "snd" healthy))
  = trace (snd (Lookup 0%nat "snd" healthy))
      ++ [EvProbeInsert 11 0 NULL NULL NULL NULL;
          EvProbeInsert 12 0 NULL NULL NULL NULL;
          EvProbeInsert 13 0 NULL NULL NULL NULL]
  /\ trace (snd (Remove 0%nat "snd" healthy))
     = trace (snd (Lookup 0%nat "snd" healthy))
         ++ [EvRemoveModule 11 0; EvRemoveModule 12 0; EvRemoveModule 13 0].
Proof.
  destruct (nil_result_means_every_module_was_served 0%nat "snd" healthy
              [newModule 11; newModule 12; newModule 13]
              (snd (Lookup 0%nat "snd" healthy)))
    as (HI & HR); [vm_compute; reflexivity|].
  split.
  - apply (HI (snd (Insert 0%nat "snd" healthy))). vm_compute. reflexivity.
  - apply (HR (snd (Remove 0%nat "snd" healthy))). vm_compute. reflexivity.
Defined.


Lemma NewKmod_allocates_iff_it_succeeds_witness :
  keeps_go_state (boot (machine 7 (-12))) (NewKmod (boot (machine 7 (-12))))
  /\ exists c : ptr,
       c <> NULL
       /\ heap running = [mkKmod c]
       /\ finalizers running = [0%nat].
Proof.
  split.
  - destruct (NewKmod_allocates_iff_it_succeeds (boot (machine 7 (-12))))
      as (Herr & _).
    eapply Herr. reflexivity.
  - destruct (NewKmod_allocates_iff_it_succeeds (boot (machine 7 0)))
      as (_ & Hok).
    destruct (Hok (Some 0%nat) eq_refl) as (c & Hc & _ & Hh & Hf).
    exists c. repeat split; assumption.
Defined.

Lemma NewKmod_loads_only_a_created_session_witness :
  7 <> NULL /\ 7 = fst (kmod_new NULL NULL (world (boot (machine 7 0)))).
Proof.
  apply (NewKmod_loads_only_a_created_session (boot (machine 7 0))
           [EvKmodNew NULL NULL; EvLoadResources 7] 7).
  - reflexivity.
  - right. left. reflexivity.
Defined.
